(** * binette, [src/db.rs]: the file identity and schema-version gate.

    Shallow embedding of [AppFile::try_open], [AppFile::compare_version] and
    [AppFile::upgrade] over an abstract model of the SQLite engine as rusqlite
    exposes it.  The engine is an explicit state (the entry on disk at the
    opened path, and the log of engine calls made), and every engine call may
    be made to fail by a fault oracle, so that I/O errors, lock time-outs and
    the like are covered by the statements. *)

From Stdlib Require Import ZArith String List Bool Lia.
Import ListNotations.
Open Scope Z_scope.

(** ** Rust prelude *)

Inductive result (T E : Type) : Type :=
| Ok (t : T)
| Err (e : E).
Arguments Ok {T E} t.
Arguments Err {T E} e.

(** [std::cmp::Ordering]. *)
Inductive Ordering := Less | Equal | Greater.

(** [Ord::cmp] on integers. *)
Definition cmp (a b : Z) : Ordering :=
  match Z.compare a b with
  | Lt => Less
  | Eq => Equal
  | Gt => Greater
  end.

Definition i32_min : Z := - 2 ^ 31.
Definition i32_max : Z := 2 ^ 31 - 1.
Definition u32_max : Z := 2 ^ 32 - 1.

(** ** rusqlite *)

(** [rusqlite::ffi::ErrorCode] (the primary SQLite result codes). *)
Inductive ErrorCode :=
| InternalMalfunction | PermissionDenied | OperationAborted | DatabaseBusy
| DatabaseLocked | OutOfMemory | ReadOnly | OperationInterrupted
| SystemIoFailure | DatabaseCorrupt | NotFound | DiskFull | CannotOpen
| FileLockingProtocolFailed | SchemaChanged | TooBig | ConstraintViolation
| TypeMismatch | ApiMisuse | NoLargeFileSupport
| AuthorizationForStatementDenied | ParameterOutOfRange | NotADatabase
| Unknown.

Definition ErrorCode_eqb (a b : ErrorCode) : bool :=
  match a, b with
  | InternalMalfunction, InternalMalfunction | PermissionDenied, PermissionDenied
  | OperationAborted, OperationAborted | DatabaseBusy, DatabaseBusy
  | DatabaseLocked, DatabaseLocked | OutOfMemory, OutOfMemory
  | ReadOnly, ReadOnly | OperationInterrupted, OperationInterrupted
  | SystemIoFailure, SystemIoFailure | DatabaseCorrupt, DatabaseCorrupt
  | NotFound, NotFound | DiskFull, DiskFull | CannotOpen, CannotOpen
  | FileLockingProtocolFailed, FileLockingProtocolFailed
  | SchemaChanged, SchemaChanged | TooBig, TooBig
  | ConstraintViolation, ConstraintViolation | TypeMismatch, TypeMismatch
  | ApiMisuse, ApiMisuse | NoLargeFileSupport, NoLargeFileSupport
  | AuthorizationForStatementDenied, AuthorizationForStatementDenied
  | ParameterOutOfRange, ParameterOutOfRange | NotADatabase, NotADatabase
  | Unknown, Unknown => true
  | _, _ => false
  end.

(** [rusqlite::Error], the variants this module can meet: a failure reported
    by SQLite, the out-of-range conversion of [Row::get], and the rest. *)
Inductive Error :=
| SqliteFailure (code : ErrorCode)
| IntegralValueOutOfRange (idx : nat) (value : Z)
| OtherError.

(** [rusqlite::Error::sqlite_error_code]. *)
Definition sqlite_error_code (e : Error) : option ErrorCode :=
  match e with
  | SqliteFailure c => Some c
  | _ => None
  end.

(** [rusqlite::Result]. *)
Definition RResult (T : Type) := result T Error.

(** SQLite values as returned in a row. *)
Inductive Value := VNull | VInteger (i : Z) | VText (s : string).

(** [Row::get::<_, i32>]: [i64] column, then [i32::try_from]. *)
Definition get_i32 (idx : nat) (v : Value) : RResult Z :=
  match v with
  | VInteger i =>
      if (i32_min <=? i) && (i <=? i32_max) then Ok i
      else Err (IntegralValueOutOfRange idx i)
  | _ => Err OtherError
  end.

(** [Row::get::<_, u32>]: [i64] column, then [u32::try_from]. *)
Definition get_u32 (idx : nat) (v : Value) : RResult Z :=
  match v with
  | VInteger i =>
      if (0 <=? i) && (i <=? u32_max) then Ok i
      else Err (IntegralValueOutOfRange idx i)
  | _ => Err OtherError
  end.

(** ** The SQLite file *)

(** The two header slots are 4-byte fields (offsets 68 and 60 of the
    header); the pragmas read them back as signed 32-bit integers. *)
Definition signed32 (raw : Z) : Z :=
  let w := raw mod 2 ^ 32 in
  if w <? 2 ^ 31 then w else w - 2 ^ 32.

Record table := mk_table { tbl_name : string; tbl_rows : list (list Value) }.

Record database := mk_database {
  application_id_raw : Z;
  user_version_raw : Z;
  sqlite_schema : list table
}.

(** A file of zero bytes is an empty database: both slots 0, no table. *)
Definition empty_database : database := mk_database 0 0 [].

(** The bytes of a file: either a database SQLite decodes, or bytes whose
    header SQLite does not recognise. *)
Inductive contents :=
| Db (d : database)
| Garbage (bytes : list Byte.byte).

(** What the file system holds at the opened path. *)
Inductive entry :=
| NoParentDir
| Absent
| Present (c : contents).

(** The engine calls the module makes, in the order they appear in the code. *)
Inductive op :=
| OpOpen | OpQueryAppId | OpQuerySchema
| OpBegin | OpExec (n : nat) | OpCommit
| OpQueryUserVersion.

(** Calls that can change the database file. *)
Definition is_write (o : op) : bool :=
  match o with
  | OpBegin | OpExec _ | OpCommit => true
  | _ => false
  end.

Record state := mk_state { st_entry : entry; st_log : list op }.

Record Connection := mk_connection { conn_path : string }.

(** A [rusqlite::Transaction] (DEFERRED, [DropBehavior::Rollback]): the
    pending version of the database.  The file only changes at [commit];
    a transaction dropped before (the [?] early returns) leaves it as it was. *)
Record Transaction := mk_transaction { txn_work : database }.

(** The statements [schema()] is made of, as SQLite parses the batch. *)
Inductive stmt :=
| PragmaApplicationId (v : Z)
| CreateTable (name : string)
| InsertInto (name : string) (cols : list Value)
| PragmaUserVersion (v : Z).

Definition table_exists (name : string) (d : database) : bool :=
  existsb (fun t => String.eqb (tbl_name t) name) (sqlite_schema d).

(** One statement executed on the pending database.  [CREATE TABLE] of an
    existing name fails with [SQLITE_ERROR] (rusqlite's [Unknown]); an
    [INSERT] gives the row the next rowid as its [INTEGER PRIMARY KEY]. *)
Definition exec_stmt (s : stmt) (d : database) : RResult database :=
  match s with
  | PragmaApplicationId v =>
      Ok (mk_database (v mod 2 ^ 32) (user_version_raw d) (sqlite_schema d))
  | PragmaUserVersion v =>
      Ok (mk_database (application_id_raw d) (v mod 2 ^ 32) (sqlite_schema d))
  | CreateTable name =>
      if table_exists name d then Err (SqliteFailure Unknown)
      else Ok (mk_database (application_id_raw d) (user_version_raw d)
                 (sqlite_schema d ++ [mk_table name []]))
  | InsertInto name cols =>
      if table_exists name d then
        Ok (mk_database (application_id_raw d) (user_version_raw d)
              (map (fun t =>
                      if String.eqb (tbl_name t) name
                      then mk_table (tbl_name t)
                             (tbl_rows t ++
                              [VInteger (Z.of_nat (length (tbl_rows t)) + 1) :: cols])
                      else t)
                   (sqlite_schema d)))
      else Err (SqliteFailure Unknown)
  end.

(** ** Engine calls

    Each call is logged, then fails with the oracle's error if it says so,
    else does what SQLite does on the file. *)

Section Engine.

Variable fault : op -> option Error.

Definition Eng (A : Type) := state -> RResult A * state.

Definition engine_call {A} (o : op) (f : entry -> RResult A * entry) : Eng A :=
  fun s =>
    let s1 := mk_state (st_entry s) (st_log s ++ [o]) in
    match fault o with
    | Some e => (Err e, s1)
    | None => let (r, en) := f (st_entry s1) in (r, mk_state en (st_log s1))
    end.

(** Runs a read on the database in the file: a file whose header is not a
    database's fails with [SQLITE_NOTADB]. *)
Definition with_db {A} (en : entry) (k : database -> RResult A) : RResult A :=
  match en with
  | Present (Db d) => k d
  | Present (Garbage _) => Err (SqliteFailure NotADatabase)
  | _ => Err (SqliteFailure CannotOpen)
  end.

(** [Connection::open]: opens the file, creating it (empty) when absent. *)
Definition Connection_open (p : string) : Eng Connection :=
  engine_call OpOpen (fun en =>
    match en with
    | NoParentDir => (Err (SqliteFailure CannotOpen), en)
    | Absent => (Ok (mk_connection p), Present (Db empty_database))
    | Present _ => (Ok (mk_connection p), en)
    end).

(** [SELECT application_id FROM pragma_application_id()], [r.get::<i32>(0)]. *)
Definition query_application_id : Eng Z :=
  engine_call OpQueryAppId (fun en =>
    (with_db en (fun d => get_i32 0 (VInteger (signed32 (application_id_raw d)))), en)).

(** [prepare("SELECT tbl_name FROM sqlite_schema LIMIT 1")] then [exists]. *)
Definition query_initialized : Eng bool :=
  engine_call OpQuerySchema (fun en =>
    (with_db en (fun d => Ok (negb (match sqlite_schema d with [] => true | _ => false end))), en)).

(** [SELECT user_version FROM pragma_user_version], [r.get::<u32>(0)]. *)
Definition query_user_version : Eng Z :=
  engine_call OpQueryUserVersion (fun en =>
    (with_db en (fun d => get_u32 0 (VInteger (signed32 (user_version_raw d)))), en)).

(** [Connection::transaction]. *)
Definition transaction : Eng Transaction :=
  engine_call OpBegin (fun en => (with_db en (fun d => Ok (mk_transaction d)), en)).

(** [Transaction::execute_batch]: the statements in order, stopping at the
    first failure; only the pending database changes. *)
Fixpoint execute_batch_from (n : nat) (t : Transaction) (ss : list stmt) : Eng Transaction :=
  match ss with
  | [] => fun s => (Ok t, s)
  | st :: rest => fun s =>
      let (r, s1) := engine_call (OpExec n)
                       (fun en => (exec_stmt st (txn_work t), en)) s in
      match r with
      | Err e => (Err e, s1)
      | Ok d => execute_batch_from (S n) (mk_transaction d) rest s1
      end
  end.

Definition execute_batch (t : Transaction) (ss : list stmt) : Eng Transaction :=
  execute_batch_from 0 t ss.

(** [Transaction::commit]: the pending database becomes the file. *)
Definition commit (t : Transaction) : Eng unit :=
  engine_call OpCommit (fun _ => (Ok tt, Present (Db (txn_work t)))).

End Engine.

(** ** The module: [src/db.rs] *)

(** [SQLITE_APP_ID: i32 = 0x27011990]. *)
Definition SQLITE_APP_ID : Z := 0x27011990.

(** [SQLITE_USER_VERSION: u32 = 1]. *)
Definition SQLITE_USER_VERSION : Z := 1.

(** [env!("CARGO_PKG_VERSION")], fixed at build time; no statement below
    depends on its value. *)
Definition CARGO_PKG_VERSION : string := "0.1.0".

(** [schema()]. *)
Definition schema : list stmt :=
  [ PragmaApplicationId SQLITE_APP_ID;
    CreateTable "app_metadata";
    InsertInto "app_metadata" [VText CARGO_PKG_VERSION; VNull];
    PragmaUserVersion SQLITE_USER_VERSION ].

(** [DbError]. *)
Inductive DbError :=
| OpenFailed (path : string) (cause : Error)
| ReadFailed (cause : Error)
| WriteFailed (cause : Error)
| InvalidFileError.

(** [db::Result]. *)
Definition Result (T : Type) := result T DbError.

(** [IntoResult] for [rusqlite::Result]. *)
Definition into_open_failed {T} (p : string) (r : RResult T) : Result T :=
  match r with
  | Err e => Err (OpenFailed p e)
  | Ok x => Ok x
  end.

Definition into_read_failed {T} (r : RResult T) : Result T :=
  match r with
  | Err e => Err (ReadFailed e)
  | Ok x => Ok x
  end.

Definition into_write_failed {T} (r : RResult T) : Result T :=
  match r with
  | Err e => Err (WriteFailed e)
  | Ok x => Ok x
  end.

Definition is_not_a_database (e : Error) : bool :=
  match sqlite_error_code e with
  | Some c => ErrorCode_eqb c NotADatabase
  | None => false
  end.

Definition into_invalid_or_read_failed {T} (r : RResult T) : Result T :=
  match r with
  | Err e => if is_not_a_database e then Err InvalidFileError else into_read_failed r
  | _ => into_read_failed r
  end.

(** The module's functions run in a state and error monad; [x <- m ;; k]
    is [let x = m?; k]. *)
Definition M (A : Type) := state -> Result A * state.

Definition ret {A} (x : A) : M A := fun s => (Ok x, s).

Definition throw {A} (e : DbError) : M A := fun s => (Err e, s).

Definition bind {A B} (m : M A) (k : A -> M B) : M B :=
  fun s => let (r, s1) := m s in
           match r with
           | Ok x => k x s1
           | Err e => (Err e, s1)
           end.

Notation "x <- m ;; k" := (bind m (fun x => k))
  (at level 61, m at next level, right associativity).

(** An engine call followed by one of the [IntoResult] conversions. *)
Definition into {A} (conv : RResult A -> Result A) (m : Eng A) : M A :=
  fun s => let (r, s1) := m s in (conv r, s1).

(** [struct AppFile]. *)
Record AppFile := mk_appfile { connection : Connection }.

Section AppFile.

Variable fault : op -> option Error.

(** [AppFile::try_open]. *)
Definition try_open (path : string) : M AppFile :=
  connection <- into (into_open_failed path) (Connection_open fault path) ;;
  application_id <- into into_invalid_or_read_failed (query_application_id fault) ;;
  if negb (application_id =? 0) && negb (application_id =? SQLITE_APP_ID)
  then throw InvalidFileError
  else
  initialized <- into into_invalid_or_read_failed (query_initialized fault) ;;
  _ <- (if negb initialized
        then transaction <- into into_write_failed (transaction fault) ;;
             transaction <- into into_write_failed
                              (execute_batch fault transaction schema) ;;
             into into_write_failed (commit fault transaction)
        else ret tt) ;;
  ret (mk_appfile connection).

(** [AppFile::compare_version]. *)
Definition compare_version (self : AppFile) : M Ordering :=
  user_version <- into into_read_failed (query_user_version fault) ;;
  ret (cmp user_version SQLITE_USER_VERSION).

(** [AppFile::upgrade]: currently a no-op. *)
Definition upgrade (self : AppFile) : M unit := ret tt.

End AppFile.

Definition no_fault : op -> option Error := fun _ => None.

Definition run {A} (m : M A) (en : entry) : Result A * state := m (mk_state en []).

(** ** Auxiliary definitions for the statements *)

(** What [Connection::open] leaves at the path when it succeeds. *)
Definition opened_entry (en : entry) : entry :=
  match en with
  | Absent => Present (Db empty_database)
  | _ => en
  end.

(** The identifier check of [try_open] lets the file through. *)
Definition app_id_accepted (v : Z) : Prop := v = 0 \/ v = SQLITE_APP_ID.

(** The database [schema()] produces from a database without tables. *)
Definition initialized_database : database :=
  mk_database SQLITE_APP_ID SQLITE_USER_VERSION
    [mk_table "app_metadata" [[VInteger 1; VText CARGO_PKG_VERSION; VNull]]].

(** The two states the spec allows a file to be in. *)
Definition uninitialized_file (d : database) : Prop :=
  sqlite_schema d = [] /\ signed32 (application_id_raw d) = 0 /\
  signed32 (user_version_raw d) = 0.

Definition initialized_file (d : database) : Prop :=
  signed32 (application_id_raw d) = SQLITE_APP_ID /\
  signed32 (user_version_raw d) <> 0 /\
  table_exists "app_metadata" d = true.

(** Concrete files and runs used by the examples below. *)

(** A file whose application id was set to 123 by another program
    ([PRAGMA application_id = 123]). *)
Definition foreign_app_database : database := mk_database 123 0 [].

(** A database made by another program that never set the application id. *)
Definition foreign_tables_database : database :=
  mk_database 0 0 [mk_table "notes" [[VInteger 1; VText "hello"]]].

(** A file initialized by [try_open] whose schema-version header was then
    set by [PRAGMA user_version = -1]. *)
Definition negative_version_database : database :=
  mk_database SQLITE_APP_ID ((-1) mod 2 ^ 32) (sqlite_schema initialized_database).

Definition library_file : AppFile := mk_appfile (mk_connection "library.db").

(** The disk fills up on the third statement of [schema()]. *)
Definition disk_full_on_insert : op -> option Error :=
  fun o => match o with
           | OpExec 2 => Some (SqliteFailure DiskFull)
           | _ => None
           end.

(** The state after [try_open] initialized a new file. *)
Definition fresh_open_state : state :=
  mk_state (Present (Db initialized_database))
    [OpOpen; OpQueryAppId; OpQuerySchema; OpBegin;
     OpExec 0; OpExec 1; OpExec 2; OpExec 3; OpCommit].

(** The state after [try_open] re-opened an initialized file. *)
Definition reopen_state : state :=
  mk_state (Present (Db initialized_database)) [OpOpen; OpQueryAppId; OpQuerySchema].

(** The state after the initialization of a new file failed on the insert. *)
Definition failed_init_state : state :=
  mk_state (Present (Db empty_database))
    [OpOpen; OpQueryAppId; OpQuerySchema; OpBegin; OpExec 0; OpExec 1; OpExec 2].

(** The identifier check of [try_open], as a boolean. *)
Definition app_id_acceptedb (v : Z) : bool := (v =? 0) || (v =? SQLITE_APP_ID).

(** A directory that does not exist. *)
Definition missing_dir_path : string := "missing/library.db".

(** A file of two bytes that are not a database header. *)
Definition text_file : entry := Present (Garbage [Byte.x61; Byte.x62]).

(** ** Lemmas *)

Lemma signed32_range (r : Z) : i32_min <= signed32 r <= i32_max.
Proof.
  unfold signed32, i32_min, i32_max.
  pose proof (Z.mod_pos_bound r (2 ^ 32)) as Hb.
  destruct (Z.ltb_spec (r mod 2 ^ 32) (2 ^ 31)); lia.
Qed.

Lemma get_i32_signed32 (r : Z) :
  get_i32 0 (VInteger (signed32 r)) = Ok (signed32 r).
Proof.
  unfold get_i32. pose proof (signed32_range r) as [H1 H2].
  apply Z.leb_le in H1. apply Z.leb_le in H2. now rewrite H1, H2.
Qed.

Lemma get_u32_signed32_nonneg (r : Z) :
  0 <= signed32 r -> get_u32 0 (VInteger (signed32 r)) = Ok (signed32 r).
Proof.
  intros H. unfold get_u32. pose proof (signed32_range r) as [_ H2].
  unfold i32_max in H2.
  assert (H3 : signed32 r <= u32_max) by (unfold u32_max; lia).
  apply Z.leb_le in H. apply Z.leb_le in H3. now rewrite H, H3.
Qed.

Lemma get_u32_signed32_neg (r : Z) :
  signed32 r < 0 ->
  get_u32 0 (VInteger (signed32 r)) = Err (IntegralValueOutOfRange 0 (signed32 r)).
Proof.
  intros H. unfold get_u32.
  destruct (Z.leb_spec 0 (signed32 r)); [lia | reflexivity].
Qed.

Lemma is_not_a_database_spec (e : Error) :
  is_not_a_database e = true <-> sqlite_error_code e = Some NotADatabase.
Proof. destruct e as [c | i v |]; [destruct c | |]; cbn; split; intros; congruence. Qed.

Lemma signed32_small (v : Z) : 0 <= v < 2 ^ 31 -> signed32 (v mod 2 ^ 32) = v.
Proof.
  intros Hv. unfold signed32. rewrite Z.mod_mod by lia.
  rewrite Z.mod_small by lia. destruct (Z.ltb_spec v (2 ^ 31)); lia.
Qed.

(** ** Proof tactics *)

(** The module's engine-level definitions, unfolded by the proofs below. *)
Ltac unfold_module :=
  unfold run, try_open, compare_version, upgrade, bind, into, ret, throw,
    Connection_open, query_application_id, query_initialized,
    query_user_version, transaction, execute_batch, commit, engine_call,
    with_db, schema in *.

Ltac simpl_module :=
  cbn -[get_i32 get_u32 signed32 SQLITE_APP_ID SQLITE_USER_VERSION CARGO_PKG_VERSION] in *.

(** Symbolic execution of [try_open]: split on every fault, entry, table
    list and condition met on the way. *)
Ltac crush :=
  repeat (unfold engine_call in *; simpl_module;
    match goal with
    | H : sqlite_schema ?d = _ |- context [sqlite_schema ?d] => rewrite H
    | |- context [?f ?o] =>
        match type of f with op -> option Error => destruct (f o) eqn:? end
    | |- context [get_i32 0 (VInteger (signed32 ?r))] => rewrite get_i32_signed32
    | |- context [match sqlite_schema ?d with _ => _ end] =>
        destruct (sqlite_schema d) eqn:?
    | |- context [match ?x with _ => _ end] =>
        is_var x; match type of x with entry => destruct x | contents => destruct x end
    | |- context [if ?b then _ else _] => destruct b eqn:?
    end);
  simpl_module.

Ltac bool_facts :=
  repeat match goal with
  | H : (_ && _) = true |- _ => apply andb_true_iff in H; destruct H
  | H : (_ && _) = false |- _ => apply andb_false_iff in H; destruct H
  | H : negb _ = true |- _ => apply negb_true_iff in H
  | H : negb _ = false |- _ => apply negb_false_iff in H
  | H : (_ =? _) = true |- _ => apply Z.eqb_eq in H
  | H : (_ =? _) = false |- _ => apply Z.eqb_neq in H
  | H : app_id_accepted _ |- _ => destruct H
  end.

(** Membership in a concrete log, one element at a time. *)
Ltac log_cases H :=
  repeat (destruct H as [<- | H]; [reflexivity |]); contradiction.

(** ** Claims *)

(** C1.  On a file that is a valid SQLite database, the identifier check of
    [try_open] rejects it with [InvalidFileError] whenever the application id
    it reads is neither 0 nor [SQLITE_APP_ID] (whatever the later engine
    calls would do), and, with an engine that does not fail, [try_open]
    returns a handle exactly when the application id is 0 or
    [SQLITE_APP_ID]. *)
Theorem try_open_identity_check (fault : op -> option Error) (p : string)
    (d : database) :
  (fault OpOpen = None -> fault OpQueryAppId = None ->
   ~ app_id_accepted (signed32 (application_id_raw d)) ->
   fst (run (try_open fault p) (Present (Db d))) = Err InvalidFileError) /\
  ((exists h, fst (run (try_open no_fault p) (Present (Db d))) = Ok h) <->
   app_id_accepted (signed32 (application_id_raw d))).
Proof.
  split.
  - intros H1 H2 Hn. unfold_module. crush; try congruence.
    all: exfalso; apply Hn; bool_facts; unfold app_id_accepted; auto.
  - unfold_module. crush; split; intros H; bool_facts;
      try (destruct H; discriminate); try (eexists; reflexivity);
      unfold app_id_accepted in *; try tauto.
Qed.

Lemma try_open_identity_check_witness :
  ~ app_id_accepted (signed32 (application_id_raw foreign_app_database)) /\
  fst (run (try_open no_fault "other.db") (Present (Db foreign_app_database)))
    = Err InvalidFileError.
Proof.
  assert (Hn : ~ app_id_accepted (signed32 (application_id_raw foreign_app_database)))
    by (vm_compute; intros [H | H]; discriminate H).
  split; [exact Hn |].
  exact (proj1 (try_open_identity_check no_fault "other.db" foreign_app_database)
           eq_refl eq_refl Hn).
Defined.

(** C2.  When the read of the application id fails with [e], or the id is
    accepted and the catalog check then fails with [e], [try_open] returns
    [InvalidFileError] exactly when [e] is SQLite's [NotADatabase] error,
    and [ReadFailed e] otherwise. *)
Theorem try_open_read_error_mapping (fault : op -> option Error) (p : string)
    (en : entry) (c : Connection) (s1 : state) (e : Error) :
  Connection_open fault p (mk_state en []) = (Ok c, s1) ->
  (fst (query_application_id fault s1) = Err e \/
   (exists v s2, query_application_id fault s1 = (Ok v, s2) /\ app_id_accepted v /\
      fst (query_initialized fault s2) = Err e)) ->
  (fst (run (try_open fault p) en) = Err InvalidFileError <->
     sqlite_error_code e = Some NotADatabase) /\
  (sqlite_error_code e <> Some NotADatabase ->
     fst (run (try_open fault p) en) = Err (ReadFailed e)).
Proof.
  rewrite <- is_not_a_database_spec.
  unfold_module. crush; intros Ho Hr; try discriminate;
    injection Ho as <- <-.
  all: simpl_module;
    destruct Hr as [Hr | (v & s2 & Hq & Hacc & Hi)];
    rewrite ?get_i32_signed32 in *;
    repeat match goal with
           | H : (_, _) = (_, _) |- _ => injection H as ?H ?H
           | H : Ok _ = Ok _ |- _ => injection H as ?H
           | H : Err _ = Err _ |- _ => injection H as ?H
           | H : fst _ = _ |- _ => cbn in H
           end;
    subst; bool_facts; try discriminate; try congruence;
    cbn; split; try split; intros; congruence.
Qed.

(** A file of arbitrary bytes: the read of the application id fails with
    [NotADatabase] and [try_open] reports [InvalidFileError]. *)
Lemma try_open_read_error_mapping_witness :
  fst (run (try_open no_fault "notes.txt") (Present (Garbage [Byte.x61; Byte.x62])))
    = Err InvalidFileError.
Proof.
  apply (try_open_read_error_mapping no_fault "notes.txt"
           (Present (Garbage [Byte.x61; Byte.x62])) (mk_connection "notes.txt")
           (mk_state (Present (Garbage [Byte.x61; Byte.x62])) [OpOpen])
           (SqliteFailure NotADatabase));
    [reflexivity | left; reflexivity | reflexivity].
Defined.

(** C3.  With an engine that does not fail, [try_open] on a path where no
    file exists (its directory does) or on an empty file returns a handle;
    the initialization has set the schema-version header to
    [SQLITE_USER_VERSION], and [compare_version] on the handle returns
    [Equal]. *)
Theorem try_open_new_file (p : string) (en : entry) :
  en = Absent \/ en = Present (Db empty_database) ->
  exists h s,
    run (try_open no_fault p) en = (Ok h, s) /\
    st_entry s = Present (Db initialized_database) /\
    signed32 (user_version_raw initialized_database) = SQLITE_USER_VERSION /\
    fst (compare_version no_fault h s) = Ok Equal.
Proof.
  intros [-> | ->]; eexists _, _;
    (split; [reflexivity | split; [reflexivity | split; reflexivity]]).
Qed.

Lemma try_open_new_file_witness :
  exists h s,
    run (try_open no_fault "library.db") Absent = (Ok h, s) /\
    st_entry s = Present (Db initialized_database) /\
    signed32 (user_version_raw initialized_database) = SQLITE_USER_VERSION /\
    fst (compare_version no_fault h s) = Ok Equal.
Proof. apply (try_open_new_file "library.db" Absent). left; reflexivity. Defined.

(** C4.  On a database that has at least one table, [try_open] makes no
    write: no transaction is begun, no statement executed, nothing
    committed, and the file is left as it was, whatever schema version it
    holds; when its application id is accepted and the open and the two
    reads succeed, it returns the handle. *)
Theorem try_open_initialized_untouched (fault : op -> option Error) (p : string)
    (d : database) (r : Result AppFile) (s : state) :
  sqlite_schema d <> [] ->
  run (try_open fault p) (Present (Db d)) = (r, s) ->
  st_entry s = Present (Db d) /\
  (forall o, In o (st_log s) -> is_write o = false) /\
  (app_id_accepted (signed32 (application_id_raw d)) ->
   fault OpOpen = None -> fault OpQueryAppId = None -> fault OpQuerySchema = None ->
   r = Ok (mk_appfile (mk_connection p))).
Proof.
  intros Hd. unfold_module. crush; intros Hrun; inversion Hrun; subst; clear Hrun;
    simpl_module; try congruence.
  all: split; [reflexivity | split; [intros o Ho; log_cases Ho |]];
    intros; bool_facts; congruence.
Qed.

Lemma try_open_initialized_untouched_witness :
  sqlite_schema initialized_database <> [] /\
  run (try_open no_fault "library.db") (Present (Db initialized_database))
    = (Ok library_file, reopen_state) /\
  st_entry reopen_state = Present (Db initialized_database).
Proof.
  assert (Hd : sqlite_schema initialized_database <> []) by discriminate.
  assert (Hr : run (try_open no_fault "library.db") (Present (Db initialized_database))
                 = (Ok library_file, reopen_state)) by (vm_compute; reflexivity).
  split; [exact Hd | split; [exact Hr |]].
  exact (proj1 (try_open_initialized_untouched no_fault "library.db"
                  initialized_database _ _ Hd Hr)).
Defined.
(** C5 (corrected).  [compare_version] only reads: the file is left as it
    was and the log grows by the one read of the header.  When the read
    succeeds and the schema-version header, read by SQLite as a signed
    32-bit value [v], is non-negative, it returns [Less], [Equal] or
    [Greater] as [v] compares with [SQLITE_USER_VERSION]; a negative [v]
    gives [ReadFailed]. *)
Theorem compare_version_orders (fault : op -> option Error) (h : AppFile)
    (s : state) :
  st_entry (snd (compare_version fault h s)) = st_entry s /\
  st_log (snd (compare_version fault h s)) = st_log s ++ [OpQueryUserVersion] /\
  forall d, st_entry s = Present (Db d) ->
    let v := signed32 (user_version_raw d) in
    (fault OpQueryUserVersion = None -> 0 <= v ->
       fst (compare_version fault h s) = Ok (cmp v SQLITE_USER_VERSION)) /\
    (v < 0 -> exists e, fst (compare_version fault h s) = Err (ReadFailed e)).
Proof.
  unfold_module. destruct s as [en log]; cbn -[get_u32].
  destruct (fault OpQueryUserVersion) as [e|] eqn:Hf; cbn -[get_u32].
  - split; [reflexivity | split; [reflexivity |]].
    intros d0 _; split; [discriminate | intros _; now exists e].
  - destruct en as [| | [d0|b]]; cbn -[get_u32].
    1, 2, 4: split; [reflexivity | split; [reflexivity | intros d1 Hd1; discriminate]].
    destruct (get_u32 0 (VInteger (signed32 (user_version_raw d0)))) eqn:Hg;
      cbn -[get_u32]; (split; [reflexivity | split; [reflexivity |]]);
      intros d1 Hd1; injection Hd1 as <-; split.
    + intros _ Hv. rewrite get_u32_signed32_nonneg in Hg by exact Hv.
      now injection Hg as ->.
    + intros Hv. rewrite get_u32_signed32_neg in Hg by exact Hv. discriminate.
    + intros _ Hv. rewrite get_u32_signed32_nonneg in Hg by exact Hv. discriminate.
    + intros _. now exists e.
Qed.

(** C5, counterexample.  The header of this file reads as [v = -1], below
    [SQLITE_USER_VERSION]; [compare_version] does not return [Less] but
    [ReadFailed]: [u32::try_from(-1)] fails. *)
Lemma compare_version_negative_header_cex :
  exec_stmt (PragmaUserVersion (-1)) initialized_database
    = Ok negative_version_database /\
  signed32 (user_version_raw negative_version_database) = -1 /\
  fst (compare_version no_fault (mk_appfile (mk_connection "library.db"))
         (mk_state (Present (Db negative_version_database)) []))
    = Err (ReadFailed (IntegralValueOutOfRange 0 (-1))).
Proof. vm_compute. repeat split. Qed.

(** C6.  [upgrade] returns [Ok(())] and leaves the state as it was, whatever
    the schema version of the file: the version [compare_version] reads
    after it is the one it read before. *)
Theorem upgrade_is_noop (h : AppFile) (s : state) :
  upgrade h s = (Ok tt, s) /\
  forall fault, compare_version fault h (snd (upgrade h s)) = compare_version fault h s.
Proof. split; reflexivity. Qed.

(** C10.  A schema-version header that reads as a negative signed 32-bit
    value makes [compare_version] fail with [ReadFailed] (the value is read
    as [u32]), with or without an engine fault. *)
Theorem compare_version_negative_read_failed (fault : op -> option Error)
    (h : AppFile) (s : state) (d : database) :
  st_entry s = Present (Db d) ->
  signed32 (user_version_raw d) < 0 ->
  exists e, fst (compare_version fault h s) = Err (ReadFailed e).
Proof.
  intros Hs Hv. unfold_module. destruct s as [en log]; cbn -[get_u32] in *.
  subst en. destruct (fault OpQueryUserVersion) as [e|]; cbn -[get_u32].
  - now exists e.
  - rewrite get_u32_signed32_neg by exact Hv. cbn. eexists; reflexivity.
Qed.

Lemma compare_version_negative_read_failed_witness :
  exists e, fst (compare_version no_fault (mk_appfile (mk_connection "library.db"))
                   (mk_state (Present (Db negative_version_database)) []))
            = Err (ReadFailed e).
Proof.
  apply (compare_version_negative_read_failed no_fault _ _ negative_version_database);
    vm_compute; reflexivity.
Defined.

Lemma compare_version_orders_witness :
  st_entry fresh_open_state = Present (Db initialized_database) /\
  fst (compare_version no_fault library_file fresh_open_state) = Ok Equal.
Proof.
  split; [reflexivity |].
  destruct (compare_version_orders no_fault library_file fresh_open_state)
    as (_ & _ & H).
  destruct (H initialized_database eq_refl) as [H1 _].
  exact (H1 eq_refl ltac:(vm_compute; congruence)).
Defined.

(** C7.  Every failure of a write of the initialization (begin, one of the
    statements of [schema()], commit) makes [try_open] return [WriteFailed]
    with that failure as cause, and the file is left as [Connection::open]
    left it; conversely a [WriteFailed] result always comes with that
    untouched file, which has no table. *)
Theorem try_open_init_failure_atomic (fault : op -> option Error) (p : string)
    (en : entry) (r : Result AppFile) (s : state) :
  run (try_open fault p) en = (r, s) ->
  (forall o e, In o (st_log s) -> is_write o = true -> fault o = Some e ->
     r = Err (WriteFailed e) /\ st_entry s = opened_entry en) /\
  (forall e, r = Err (WriteFailed e) ->
     st_entry s = opened_entry en /\
     exists d, opened_entry en = Present (Db d) /\ sqlite_schema d = []).
Proof.
  unfold_module. crush; intros Hrun; inversion Hrun; subst; clear Hrun; simpl_module.
  all: split;
    [ intros o e' Ho Hw Hf;
      repeat (destruct Ho as [<- | Ho]; [try discriminate Hw; split; congruence |]);
      contradiction
    | intros e' He;
      first [ discriminate He
            | split; [reflexivity |
                      eexists; split; [reflexivity | first [assumption | reflexivity]]] ] ].
Qed.

Lemma try_open_init_failure_atomic_witness :
  run (try_open disk_full_on_insert "library.db") Absent
    = (Err (WriteFailed (SqliteFailure DiskFull)), failed_init_state) /\
  st_entry failed_init_state = opened_entry Absent.
Proof.
  assert (Hr : run (try_open disk_full_on_insert "library.db") Absent
                 = (Err (WriteFailed (SqliteFailure DiskFull)), failed_init_state))
    by (vm_compute; reflexivity).
  split; [exact Hr |].
  exact (proj2 (proj1 (try_open_init_failure_atomic disk_full_on_insert "library.db"
                         Absent _ _ Hr) (OpExec 2) (SqliteFailure DiskFull)
                  ltac:(cbn; tauto) eq_refl eq_refl)).
Defined.

(** C8 (corrected).  After a successful [try_open] the file is in one of
    two states: it had at least one table and an accepted application id
    (0 or [SQLITE_APP_ID]) and is left exactly as it was, whether or not it
    holds the metadata table; or it had no table and is now the initialized
    database: application id [SQLITE_APP_ID], schema version 1, and the
    [app_metadata] table with its one row. *)
Theorem try_open_success_states (fault : op -> option Error) (p : string)
    (en : entry) (h : AppFile) (s : state) :
  run (try_open fault p) en = (Ok h, s) ->
  (exists d, opened_entry en = Present (Db d) /\ st_entry s = Present (Db d) /\
     sqlite_schema d <> [] /\ app_id_accepted (signed32 (application_id_raw d))) \/
  (exists d, opened_entry en = Present (Db d) /\ sqlite_schema d = [] /\
     app_id_accepted (signed32 (application_id_raw d)) /\
     st_entry s = Present (Db initialized_database)).
Proof.
  unfold_module. crush; intros Hrun; inversion Hrun; subst; clear Hrun;
    simpl_module; bool_facts.
  all: first
    [ left; eexists; split; [reflexivity|]; split; [reflexivity|];
      split; [congruence | unfold app_id_accepted; auto]
    | right; eexists; split; [reflexivity|]; split; [first [assumption | reflexivity]|];
      split; [unfold app_id_accepted; cbn -[signed32 SQLITE_APP_ID]; auto | reflexivity] ].
Qed.

Lemma try_open_success_states_witness :
  run (try_open no_fault "library.db") Absent = (Ok library_file, fresh_open_state) /\
  exists d, opened_entry Absent = Present (Db d) /\ sqlite_schema d = [] /\
     app_id_accepted (signed32 (application_id_raw d)) /\
     st_entry fresh_open_state = Present (Db initialized_database).
Proof.
  assert (Hr : run (try_open no_fault "library.db") Absent
                 = (Ok library_file, fresh_open_state)) by (vm_compute; reflexivity).
  split; [exact Hr |].
  destruct (try_open_success_states no_fault "library.db" Absent _ _ Hr)
    as [(d & Hd & Hs & Ht & _) | H]; [| exact H].
  exfalso. injection Hd as <-. apply Ht. reflexivity.
Defined.

(** C8, counterexample.  A database of another program with a table and no
    application id: [try_open] accepts it and returns a handle, leaving the
    file neither uninitialized (it has a table) nor initialized (its
    application id is 0 and it has no [app_metadata] table). *)
Lemma try_open_foreign_tables_cex :
  run (try_open no_fault "notes.db") (Present (Db foreign_tables_database)) =
    (Ok (mk_appfile (mk_connection "notes.db")),
     mk_state (Present (Db foreign_tables_database)) [OpOpen; OpQueryAppId; OpQuerySchema]) /\
  ~ uninitialized_file foreign_tables_database /\
  ~ initialized_file foreign_tables_database.
Proof.
  split; [vm_compute; reflexivity |].
  unfold uninitialized_file, initialized_file; split.
  - intros [H _]; discriminate H.
  - intros [H _]. vm_compute in H. discriminate H.
Qed.

(** C9.  [try_open] makes a write (begin, statement, commit) only after the
    open, the read of the application id and the catalog check have all
    succeeded, the id being accepted and the database having no table; when
    it returns [InvalidFileError] it has made no write, and the file is as
    [Connection::open] left it (as it was, for a file that existed). *)
Theorem try_open_writes_after_checks (fault : op -> option Error) (p : string)
    (en : entry) (r : Result AppFile) (s : state) :
  run (try_open fault p) en = (r, s) ->
  (forall o, In o (st_log s) -> is_write o = true ->
     exists d rest,
       st_log s = [OpOpen; OpQueryAppId; OpQuerySchema] ++ rest /\
       opened_entry en = Present (Db d) /\
       fault OpOpen = None /\ fault OpQueryAppId = None /\ fault OpQuerySchema = None /\
       app_id_accepted (signed32 (application_id_raw d)) /\ sqlite_schema d = []) /\
  (r = Err InvalidFileError ->
     st_entry s = opened_entry en /\ forall o, In o (st_log s) -> is_write o = false).
Proof.
  unfold_module. crush; intros Hrun; inversion Hrun; subst; clear Hrun; simpl_module.
  all: split;
    [ intros o Ho Hw;
      first
        [ repeat (destruct Ho as [<- | Ho]; [discriminate Hw |]); contradiction
        | bool_facts;
          (do 2 eexists; split; [reflexivity|]; split; [reflexivity|];
           repeat split; try assumption; try reflexivity;
           unfold app_id_accepted; cbn -[signed32 SQLITE_APP_ID]; auto) ]
    | intros Hr;
      first
        [ discriminate Hr
        | split; [reflexivity|]; intros o Ho; log_cases Ho ] ].
Qed.

Lemma try_open_writes_after_checks_witness :
  run (try_open no_fault "other.db") (Present (Db foreign_app_database))
    = (Err InvalidFileError,
       mk_state (Present (Db foreign_app_database)) [OpOpen; OpQueryAppId]) /\
  st_entry (mk_state (Present (Db foreign_app_database)) [OpOpen; OpQueryAppId])
    = Present (Db foreign_app_database).
Proof.
  assert (Hr : run (try_open no_fault "other.db") (Present (Db foreign_app_database))
                 = (Err InvalidFileError,
                    mk_state (Present (Db foreign_app_database)) [OpOpen; OpQueryAppId]))
    by (vm_compute; reflexivity).
  split; [exact Hr |].
  exact (proj1 (proj2 (try_open_writes_after_checks no_fault "other.db" _ _ _ Hr) eq_refl)).
Defined.

(** ** Further properties of the module *)

(** [try_open] on a path whose directory does not exist fails at
    [Connection::open] with [OpenFailed] naming that path; and an
    [OpenFailed] result always names the path given, comes from the open
    alone (no other engine call was made) and leaves the entry as it was. *)
Theorem try_open_open_failed_path (fault : op -> option Error) (p : string)
    (en : entry) (r : Result AppFile) (s : state) :
  run (try_open fault p) en = (r, s) ->
  (en = NoParentDir -> exists e, r = Err (OpenFailed p e)) /\
  (forall q e, r = Err (OpenFailed q e) ->
     q = p /\ st_log s = [OpOpen] /\ st_entry s = en /\
     (fault OpOpen = Some e \/
      (fault OpOpen = None /\ en = NoParentDir /\ e = SqliteFailure CannotOpen))).
Proof.
  unfold_module. crush; intros Hrun; inversion Hrun; subst; clear Hrun; simpl_module.
  all: split; [intros Hen; first [discriminate Hen | eexists; reflexivity] |
               intros q e' He; first [discriminate He | injection He as <- <-;
                 repeat split; auto] ].
Qed.

Lemma try_open_open_failed_path_witness :
  run (try_open no_fault missing_dir_path) NoParentDir
    = (Err (OpenFailed missing_dir_path (SqliteFailure CannotOpen)),
       mk_state NoParentDir [OpOpen]) /\
  exists e, Err (OpenFailed missing_dir_path (SqliteFailure CannotOpen))
              = (Err (OpenFailed missing_dir_path e) : Result AppFile).
Proof.
  assert (Hr : run (try_open no_fault missing_dir_path) NoParentDir
                 = (Err (OpenFailed missing_dir_path (SqliteFailure CannotOpen)),
                    mk_state NoParentDir [OpOpen])) by (vm_compute; reflexivity).
  split; [exact Hr |].
  exact (proj1 (try_open_open_failed_path no_fault missing_dir_path NoParentDir _ _ Hr)
           eq_refl).
Defined.

(** A failed [try_open] leaves the file as it was, or, for a path where no
    file existed, the empty database [Connection::open] created; unless the
    error is [WriteFailed], it has made no write at all. *)
Theorem try_open_error_keeps_file (fault : op -> option Error) (p : string)
    (en : entry) (e : DbError) (s : state) :
  run (try_open fault p) en = (Err e, s) ->
  (st_entry s = en \/ (en = Absent /\ st_entry s = Present (Db empty_database))) /\
  ((forall c, e <> WriteFailed c) -> forall o, In o (st_log s) -> is_write o = false).
Proof.
  unfold_module. crush; intros Hrun; inversion Hrun; subst; clear Hrun; simpl_module.
  all: split; [auto | intros Hw o Ho;
    first [ exfalso; eapply Hw; reflexivity | log_cases Ho ]].
Qed.

Lemma try_open_error_keeps_file_witness :
  run (try_open no_fault "notes.txt") text_file
    = (Err InvalidFileError, mk_state text_file [OpOpen; OpQueryAppId]) /\
  forall o, In o [OpOpen; OpQueryAppId] -> is_write o = false.
Proof.
  assert (Hr : run (try_open no_fault "notes.txt") text_file
                 = (Err InvalidFileError, mk_state text_file [OpOpen; OpQueryAppId]))
    by (vm_compute; reflexivity).
  split; [exact Hr |].
  exact (proj2 (try_open_error_keeps_file no_fault "notes.txt" text_file _ _ Hr)
           ltac:(intros c Hc; discriminate Hc)).
Defined.

(** The errors [try_open] reports as [ReadFailed] or [WriteFailed] all come
    from a failing engine call: the [i32] conversion of the application id
    never fails, and the statements of [schema()] never fail on the
    table-less database they are run on. *)
Theorem try_open_failures_are_engine_faults (fault : op -> option Error)
    (p : string) (en : entry) (r : Result AppFile) (s : state) (e : Error) :
  run (try_open fault p) en = (r, s) ->
  r = Err (ReadFailed e) \/ r = Err (WriteFailed e) ->
  exists o, In o (st_log s) /\ fault o = Some e.
Proof.
  unfold_module. crush; intros Hrun; inversion Hrun; subst; clear Hrun; simpl_module.
  all: intros [He | He];
    first [ discriminate He
          | injection He as <-; exists OpOpen; cbn; tauto
          | injection He as <-; eexists; split; [| eassumption]; cbn; tauto ].
Qed.

Lemma try_open_failures_are_engine_faults_witness :
  exists o, In o (st_log failed_init_state) /\
            disk_full_on_insert o = Some (SqliteFailure DiskFull).
Proof.
  assert (Hr : run (try_open disk_full_on_insert "library.db") Absent
                 = (Err (WriteFailed (SqliteFailure DiskFull)), failed_init_state))
    by (vm_compute; reflexivity).
  exact (try_open_failures_are_engine_faults disk_full_on_insert "library.db" Absent
           _ _ (SqliteFailure DiskFull) Hr (or_intror eq_refl)).
Defined.

(** The fault-free re-open of an initialized file: the state a fault-free
    initialization leaves. *)
Lemma try_open_reopen_initialized (p : string) :
  run (try_open no_fault p) (Present (Db initialized_database))
    = (Ok (mk_appfile (mk_connection p)), reopen_state).
Proof. vm_compute. reflexivity. Qed.

(** Opening a file again after a successful [try_open] (with an engine
    that does not fail) succeeds with the same handle, makes only the open
    and the two reads, and leaves the file as the first open left it. *)
Theorem try_open_reopen_idempotent (p : string) (en : entry) (h : AppFile)
    (s : state) :
  run (try_open no_fault p) en = (Ok h, s) ->
  run (try_open no_fault p) (st_entry s)
    = (Ok h, mk_state (st_entry s) [OpOpen; OpQueryAppId; OpQuerySchema]).
Proof.
  unfold_module. crush; intros Hrun; inversion Hrun; subst; clear Hrun; simpl_module.
  all: first [ exact (try_open_reopen_initialized p)
             | crush; first [reflexivity | congruence] ].
Qed.

Lemma try_open_reopen_idempotent_witness :
  run (try_open no_fault "library.db") Absent = (Ok library_file, fresh_open_state) /\
  run (try_open no_fault "library.db") (st_entry fresh_open_state)
    = (Ok library_file, mk_state (st_entry fresh_open_state)
                          [OpOpen; OpQueryAppId; OpQuerySchema]).
Proof.
  assert (Hr : run (try_open no_fault "library.db") Absent
                 = (Ok library_file, fresh_open_state)) by (vm_compute; reflexivity).
  exact (conj Hr (try_open_reopen_idempotent "library.db" Absent _ _ Hr)).
Defined.

(** With an engine that does not fail, the outcome of [try_open] is decided
    by the entry at the path alone: [OpenFailed] when the directory is
    missing, a handle for a new file, [InvalidFileError] for bytes that are
    not a database, and for a database a handle exactly when its
    application id is 0 or [SQLITE_APP_ID]. *)
Theorem try_open_fault_free_outcome (p : string) (en : entry) :
  fst (run (try_open no_fault p) en) =
  match en with
  | NoParentDir => Err (OpenFailed p (SqliteFailure CannotOpen))
  | Absent => Ok (mk_appfile (mk_connection p))
  | Present (Garbage _) => Err InvalidFileError
  | Present (Db d) =>
      if app_id_acceptedb (signed32 (application_id_raw d))
      then Ok (mk_appfile (mk_connection p)) else Err InvalidFileError
  end.
Proof.
  unfold app_id_acceptedb. unfold_module. crush.
  all: repeat match goal with
         | H : (_ || _) = true |- _ => apply orb_true_iff in H; destruct H
         | H : (_ || _) = false |- _ => apply orb_false_iff in H; destruct H
         end; bool_facts; subst;
    first [reflexivity | congruence | vm_compute in *; congruence].
Qed.

(** As in the module's test of [compare_version]: after a file is
    initialized, setting its schema version to any [v] with
    [0 <= v < 2^31] and opening it again leaves that version in place, and
    [compare_version] returns the order of [v] and [SQLITE_USER_VERSION]. *)
Theorem compare_version_after_user_version_set (p : string) (v : Z) :
  0 <= v < 2 ^ 31 ->
  let d := mk_database SQLITE_APP_ID (v mod 2 ^ 32) (sqlite_schema initialized_database) in
  exec_stmt (PragmaUserVersion v) initialized_database = Ok d /\
  exists h s,
    run (try_open no_fault p) (Present (Db d)) = (Ok h, s) /\
    st_entry s = Present (Db d) /\
    fst (compare_version no_fault h s) = Ok (cmp v SQLITE_USER_VERSION).
Proof.
  intros Hv d. split; [reflexivity |].
  eexists _, _. split; [reflexivity | split; [reflexivity |]].
  unfold_module. cbn -[get_u32 signed32 SQLITE_USER_VERSION].
  rewrite signed32_small by exact Hv.
  rewrite <- (signed32_small v Hv) at 1.
  rewrite get_u32_signed32_nonneg by (rewrite signed32_small by exact Hv; lia).
  rewrite signed32_small by exact Hv. reflexivity.
Qed.

Lemma compare_version_after_user_version_set_witness :
  exists h s,
    run (try_open no_fault "library.db")
      (Present (Db (mk_database SQLITE_APP_ID (0 mod 2 ^ 32)
                      (sqlite_schema initialized_database)))) = (Ok h, s) /\
    st_entry s = Present (Db (mk_database SQLITE_APP_ID (0 mod 2 ^ 32)
                                (sqlite_schema initialized_database))) /\
    fst (compare_version no_fault h s) = Ok Less.
Proof.
  exact (proj2 (compare_version_after_user_version_set "library.db" 0
                  ltac:(lia))).
Defined.

(** [compare_version] reports every failure as [ReadFailed]: unlike
    [try_open], a file whose header is not a database's gives
    [ReadFailed] with SQLite's [NotADatabase] error, not
    [InvalidFileError]. *)
Theorem compare_version_errors_read_failed (fault : op -> option Error)
    (h : AppFile) (s : state) :
  (forall e, fst (compare_version fault h s) = Err e -> exists c, e = ReadFailed c) /\
  (forall b, st_entry s = Present (Garbage b) -> fault OpQueryUserVersion = None ->
     fst (compare_version fault h s) = Err (ReadFailed (SqliteFailure NotADatabase))).
Proof.
  unfold_module. destruct s as [en log]; cbn -[get_u32].
  destruct (fault OpQueryUserVersion) as [c|]; cbn -[get_u32].
  - split; [intros e He; injection He as <-; now exists c | intros; discriminate].
  - split.
    + intros e. destruct en as [| | [d|b]]; cbn -[get_u32];
        try (intros He; injection He as <-; eexists; reflexivity).
      destruct (get_u32 0 (VInteger (signed32 (user_version_raw d)))); cbn;
        intros He; [discriminate | injection He as <-; eexists; reflexivity].
    + intros b Hb _. cbn in Hb. subst en. reflexivity.
Qed.

Lemma compare_version_errors_read_failed_witness :
  fst (compare_version no_fault library_file (mk_state text_file []))
    = Err (ReadFailed (SqliteFailure NotADatabase)).
Proof.
  exact (proj2 (compare_version_errors_read_failed no_fault library_file
                  (mk_state text_file [])) [Byte.x61; Byte.x62] eq_refl eq_refl).
Defined.

(** The batch of [schema()], run on any database without tables (whatever
    its two header slots hold), executes its four statements and yields the
    initialized database: application id [SQLITE_APP_ID], schema version 1,
    and the [app_metadata] table with the one row of rowid 1. *)
Theorem schema_initializes_tableless (d : database) (s : state) :
  sqlite_schema d = [] ->
  execute_batch no_fault (mk_transaction d) schema s =
    (Ok (mk_transaction initialized_database),
     mk_state (st_entry s) (st_log s ++ [OpExec 0; OpExec 1; OpExec 2; OpExec 3])).
Proof.
  destruct d as [a u t]; cbn; intros ->. destruct s as [en log].
  cbn. rewrite <- !app_assoc. reflexivity.
Qed.

Lemma schema_initializes_tableless_witness :
  execute_batch no_fault (mk_transaction foreign_app_database) schema
    (mk_state Absent [])
  = (Ok (mk_transaction initialized_database),
     mk_state Absent ([] ++ [OpExec 0; OpExec 1; OpExec 2; OpExec 3])).
Proof.
  exact (schema_initializes_tableless foreign_app_database (mk_state Absent []) eq_refl).
Defined.

(** The batch of [schema()] cannot be run twice: on a database that already
    holds the [app_metadata] table its [CREATE TABLE] (the second statement)
    fails with SQLite's [SQLITE_ERROR], and the batch stops there. *)
Theorem schema_not_rerunnable (d : database) (s : state) :
  table_exists "app_metadata" d = true ->
  execute_batch no_fault (mk_transaction d) schema s =
    (Err (SqliteFailure Unknown),
     mk_state (st_entry s) (st_log s ++ [OpExec 0; OpExec 1])).
Proof.
  destruct d as [a u t]; unfold table_exists; cbn; intros Ht. rewrite Ht.
  destruct s as [en log]; cbn. rewrite <- app_assoc. reflexivity.
Qed.

Lemma schema_not_rerunnable_witness :
  execute_batch no_fault (mk_transaction initialized_database) schema
    (mk_state (Present (Db initialized_database)) [])
  = (Err (SqliteFailure Unknown),
     mk_state (Present (Db initialized_database)) ([] ++ [OpExec 0; OpExec 1])).
Proof.
  exact (schema_not_rerunnable initialized_database
           (mk_state (Present (Db initialized_database)) []) eq_refl).
Defined.
